(** * Disk-usage status item: model of [packages/labextension/src/diskUsage.tsx]

    The development follows the TypeScript module: the numbers and the
    comparison operators the code uses ([JS]), the unit table and converter it
    imports from [./format] ([Format]), the status-bar model
    [DiskUsage.Model] with its poll handler ([DiskUsage]) and the request
    factory ([Private]). *)

From Stdlib Require Import QArith Qcanon String List Sorted Bool Arith Lia.
Import ListNotations.

Local Open Scope string_scope.

(** ** Numbers and the operators of the source *)

Module JS.

(** A [number] of the source holding a finite value.  Values are exact
    rationals in canonical form, so that Leibniz equality is numeric equality.
    [NaN] and the infinities are outside the model (a JSON body cannot encode
    [NaN], and dividing a finite number by a non-zero multiplier gives none),
    and rounding is not modelled. *)
Definition number : Type := Qc.

(** [a !== b] on two numbers. *)
Definition strict_neq (a b : number) : bool := negb (Qeq_bool a b).

(** [a !== b] on two values of type [number | null]. *)
Definition strict_neq_nullable (a b : option number) : bool :=
  match a, b with
  | None, None => false
  | Some x, Some y => strict_neq x y
  | _, _ => true
  end.

(** Truthiness of a property read that may yield [undefined]: a missing
    property and the number zero are falsy. *)
Definition truthy (v : option number) : bool :=
  match v with
  | None => false
  | Some x => strict_neq x 0%Qc
  end.

(** [a <= b] on two numbers. *)
Definition le (a b : number) : bool := Qle_bool a b.

End JS.

Export JS.

(** ** The unit table and the converter imported from [./format] *)

Module Format.

(** Modelled from the spec: the module [format.ts] the source imports
    [MemoryUnit], [MEMORY_UNIT_LIMITS] and [convertToLargestUnit] from is not
    among the sources.  The spec describes the units as an ordered set of
    scale tags (bytes, kilobytes, megabytes, ...); the source names the
    smallest one ['B']. *)
Inductive MemoryUnit : Set := B | KB | MB | GB | TB | PB.

(** Position of a unit in the order of the scale tags. *)
Definition rank (u : MemoryUnit) : nat :=
  match u with
  | B => 0 | KB => 1 | MB => 2 | GB => 3 | TB => 4 | PB => 5
  end.

Definition MemoryUnit_eqb (a b : MemoryUnit) : bool := Nat.eqb (rank a) (rank b).

(** [a !== b] on two unit tags. *)
Definition unit_strict_neq (a b : MemoryUnit) : bool := negb (MemoryUnit_eqb a b).

(** Modelled from the spec: the ordered unit table, iterated from the largest
    multiplier to the smallest. *)
Definition UNITS_DESCENDING : list MemoryUnit := [PB; TB; GB; MB; KB; B].

Definition of_Z (z : Z) : number := Q2Qc (inject_Z z).

(** Modelled from the spec: the byte multiplier of each unit.  The spec fixes
    the smallest multiplier to 1 and the one of the gigabyte tag to 1e9. *)
Definition MEMORY_UNIT_LIMITS (u : MemoryUnit) : number :=
  of_Z (10 ^ (3 * Z.of_nat (rank u))).

Section Converter.

(** The converter is written over any multiplier table. *)
Variable limits : MemoryUnit -> number.

(** The first unit of [table] whose multiplier is at most [bytes]. *)
Fixpoint first_fitting (table : list MemoryUnit) (bytes : number)
  : option MemoryUnit :=
  match table with
  | [] => None
  | u :: rest =>
      if JS.le (limits u) bytes then Some u else first_fitting rest bytes
  end.

(** Modelled from the spec: iterate the unit table from the largest
    multiplier to the smallest, pick the first unit whose multiplier is at
    most [bytes], fall back to the smallest unit when none qualifies; the
    scaled value is [bytes / multiplier(unit)]. *)
Definition convertToLargestUnit (bytes : number) : number * MemoryUnit :=
  let unit :=
    match first_fitting UNITS_DESCENDING bytes with
    | Some u => u
    | None => B
    end in
  ((bytes / limits unit)%Qc, unit).

End Converter.

End Format.

Export Format.

(** ** The status-bar model, [DiskUsage.Model] *)

Module DiskUsage.

(** The object a response from the metrics server extension parses to
    ([Private.IMetricRequestResult]), as far as the model reads it.  A field
    is [None] when the received object has no such property: the source
    tests [disk_used] with [hasOwnProperty] and [disk_total] for truthiness.
    [own_hasOwnProperty] tells whether the object has an own property named
    [hasOwnProperty]; in a parsed JSON body such a property holds data, never
    a function, and hides the method of [Object.prototype]. *)
Record IMetricRequestResult : Type := mkBody {
  disk_used : option number;
  disk_total : option number;
  own_hasOwnProperty : bool
}.

(** An object with the fields of the interface, when given, and no own
    property named [hasOwnProperty]. *)
Definition mkResult (used total : option number) : IMetricRequestResult :=
  {| disk_used := used; disk_total := total; own_hasOwnProperty := false |}.

(** The part of [poll.state] the handler reads.  [payload] is [None] for
    [null]; in the phase ['rejected'] the payload is the error, which the
    handler never reads. *)
Record PollState : Type := mkPollState {
  phase : string;
  payload : option IMetricRequestResult
}.

(** The private fields of the model, and the number of times the signal
    [stateChanged] has been emitted. *)
Record Model : Type := mkModel {
  _diskUsed : number;
  _diskTotal : option number;
  _metricsAvailable : bool;
  _units : MemoryUnit;
  _warn : bool;
  stateChanged : nat
}.

(** How a call of the handler completes: it returns, or it throws; either
    way the fields of the model are as the call left them. *)
Inductive Completion : Type :=
| Returned (this : Model)
| Thrown (error : string) (this : Model).

(** The model a call leaves. *)
Definition after (c : Completion) : Model :=
  match c with
  | Returned this => this
  | Thrown _ this => this
  end.

(** The exception a call ends with, if it throws. *)
Definition thrown (c : Completion) : option string :=
  match c with
  | Returned _ => None
  | Thrown error _ => Some error
  end.

(** The field initialisers of the class. *)
Definition initial : Model :=
  {| _diskUsed := 0%Qc;
     _diskTotal := None;
     _metricsAvailable := false;
     _units := B;
     _warn := false;
     stateChanged := 0 |}.

(** The getters. *)
Definition metricsAvailable (this : Model) : bool := _metricsAvailable this.
Definition diskUsed (this : Model) : number := _diskUsed this.
Definition diskTotal (this : Model) : option number := _diskTotal this.
Definition units (this : Model) : MemoryUnit := _units this.
Definition usageWarning (this : Model) : bool := _warn this.

(** Field assignments [this._x = v]. *)
Definition set_diskUsed (v : number) (this : Model) : Model :=
  mkModel v (_diskTotal this) (_metricsAvailable this) (_units this)
          (_warn this) (stateChanged this).
Definition set_diskTotal (v : option number) (this : Model) : Model :=
  mkModel (_diskUsed this) v (_metricsAvailable this) (_units this)
          (_warn this) (stateChanged this).
Definition set_metricsAvailable (v : bool) (this : Model) : Model :=
  mkModel (_diskUsed this) (_diskTotal this) v (_units this)
          (_warn this) (stateChanged this).
Definition set_units (v : MemoryUnit) (this : Model) : Model :=
  mkModel (_diskUsed this) (_diskTotal this) (_metricsAvailable this) v
          (_warn this) (stateChanged this).
Definition set_warn (v : bool) (this : Model) : Model :=
  mkModel (_diskUsed this) (_diskTotal this) (_metricsAvailable this)
          (_units this) v (stateChanged this).

(** [this.stateChanged.emit()]. *)
Definition emit (this : Model) : Model :=
  mkModel (_diskUsed this) (_diskTotal this) (_metricsAvailable this)
          (_units this) (_warn this) (S (stateChanged this)).

(** Statements in sequence: [this |> f |> g] runs [f], then [g]. *)
Notation "m |> f" := (f m) (at level 45, left associativity, only parsing).

Section Model.

(** The two imports from [./format] the model uses. *)
Variable convertToLargestUnit : number -> number * MemoryUnit.
Variable MEMORY_UNIT_LIMITS : MemoryUnit -> number.

(** Given the results of the metrics request, update model values.  The
    test [value.hasOwnProperty('disk_used')] calls whatever the object holds
    under [hasOwnProperty]: on an object with an own property of that name
    the call throws a [TypeError], before any field is assigned. *)
Definition _updateMetricsValues (value : option IMetricRequestResult)
  (this : Model) : Completion :=
  let oldMetricsAvailable := _metricsAvailable this in
  let oldDiskUsed := _diskUsed this in
  let oldDiskTotal := _diskTotal this in
  let oldUnits := _units this in
  let unavailable :=
    this |> set_metricsAvailable false
         |> set_diskUsed 0%Qc
         |> set_diskTotal None
         |> set_units B
         |> set_warn false in
  let notify (this : Model) :=
    if strict_neq (_diskUsed this) oldDiskUsed
       || unit_strict_neq (_units this) oldUnits
       || strict_neq_nullable (_diskTotal this) oldDiskTotal
       || xorb (_metricsAvailable this) oldMetricsAvailable
    then Returned (emit this)
    else Returned this in
  match value with
  | None => notify unavailable
  | Some value =>
      if own_hasOwnProperty value then Thrown "TypeError" this
      else
        match disk_used value with
        | None => notify unavailable
        | Some diskUsedBytes =>
            let diskTotal := disk_total value in
            let '(diskUsed, units) := convertToLargestUnit diskUsedBytes in
            notify
              (this |> set_metricsAvailable true
                    |> set_diskUsed diskUsed
                    |> set_units units
                    |> set_diskTotal
                         (if truthy diskTotal
                          then option_map
                                 (fun t => (t / MEMORY_UNIT_LIMITS units)%Qc)
                                 diskTotal
                          else None))
        end
  end.

(** The handler connected to [this._poll.ticked]. *)
Definition on_ticked (state : PollState) (this : Model) : Completion :=
  if String.eqb (phase state) "resolved" then
    _updateMetricsValues (payload state) this
  else if String.eqb (phase state) "rejected" then
    let oldMetricsAvailable := _metricsAvailable this in
    let this :=
      this |> set_metricsAvailable false
           |> set_diskUsed 0%Qc
           |> set_diskTotal None
           |> set_units B in
    if oldMetricsAvailable then Returned (emit this) else Returned this
  else Returned this.

(** The model after one tick, whether the handler returned or threw. *)
Definition ticked (state : PollState) (this : Model) : Model :=
  after (on_ticked state this).

(** The model after a sequence of ticks, the oldest first. *)
Definition run (ticks : list PollState) (this : Model) : Model :=
  fold_left (fun m state => ticked state m) ticks this.

End Model.

(** The two phases the handler acts on. *)
Definition resolved (value : option IMetricRequestResult) : PollState :=
  {| phase := "resolved"; payload := value |}.
Definition rejected : PollState :=
  {| phase := "rejected"; payload := None |}.

(** Two models hold the same snapshot when the four compared fields agree. *)
Definition same_snapshot (old new : Model) : Prop :=
  _diskUsed new = _diskUsed old /\
  _units new = _units old /\
  _diskTotal new = _diskTotal old /\
  _metricsAvailable new = _metricsAvailable old.

(** They differ when at least one of the four compared fields differs. *)
Definition snapshot_differs (old new : Model) : Prop :=
  _diskUsed new <> _diskUsed old \/
  _units new <> _units old \/
  _diskTotal new <> _diskTotal old \/
  _metricsAvailable new <> _metricsAvailable old.

(** The payloads on which the test of line 165 throws. *)
Definition shadows_hasOwnProperty (value : option IMetricRequestResult) : bool :=
  match value with
  | Some value => own_hasOwnProperty value
  | None => false
  end.

(** The unavailable state of the data model. *)
Definition unavailable_invariant (this : Model) : Prop :=
  _metricsAvailable this = false ->
  _diskUsed this = 0%Qc /\ _diskTotal this = None /\ _units this = B.

End DiskUsage.

(** ** The request factory, [Private.factory] *)

Module Private.

Import DiskUsage.

(** The number of decimal places to use when rendering disk usage. *)
Definition DECIMAL_PLACES : nat := 2.

(** The reason a promise is rejected with. *)
Definition Error : Type := string.

(** A settled promise. *)
Inductive Settled (A : Type) : Type :=
| Fulfilled (value : A)
| Failed (reason : Error).
Arguments Fulfilled {A} value.
Arguments Failed {A} reason.

(** [await p] followed by the rest of an [async] function: a rejection of [p]
    is the rejection of the whole function. *)
Definition await {A R : Type} (p : Settled A) (k : A -> Settled R) : Settled R :=
  match p with
  | Fulfilled a => k a
  | Failed reason => Failed reason
  end.

(** What the factory uses of a [Response]: [json] is the settled promise
    [response.json()] returns, [None] standing for a body that parses to
    [null].  [status] is carried by the response and never read by the
    factory. *)
Record Response : Type := mkResponse {
  status : Z;
  json : Settled (option IMetricRequestResult)
}.

(** The server as the factory sees it: the settled promise the [n]-th call
    of [ServerConnection.makeRequest] returns, and the number of calls made
    so far. *)
Record Network : Type := mkNetwork {
  answers : nat -> Settled Response;
  requests : nat
}.

(** [ServerConnection.makeRequest(METRIC_URL, {}, SERVER_CONNECTION_SETTINGS)]. *)
Definition makeRequest (net : Network) : Settled Response * Network :=
  (answers net (requests net),
   {| answers := answers net; requests := S (requests net) |}).

(** Make a request to the backend. *)
Definition factory (net : Network) : Settled (option IMetricRequestResult) * Network :=
  let '(request, net) := makeRequest net in
  (await request (fun response => await (json response) Fulfilled), net).



End Private.

(** ** The scenarios of the spec, on the spec's multiplier table *)

Module Scenarios.

Import DiskUsage Private.

(** The model with the converter and the table of [Format]. *)
Definition ticked : PollState -> Model -> Model :=
  DiskUsage.ticked (convertToLargestUnit MEMORY_UNIT_LIMITS) MEMORY_UNIT_LIMITS.

(** [{disk_used: 5_000_000_000, disk_total: 20_000_000_000}]. *)
Definition payload_5GB : option IMetricRequestResult :=
  Some (mkResult (Some (of_Z 5000000000)) (Some (of_Z 20000000000))).

(** [{disk_used: 512, disk_total: 2048}]. *)
Definition payload_512 : option IMetricRequestResult :=
  Some (mkResult (Some (of_Z 512)) (Some (of_Z 2048))).

(** [{disk_used: 512, disk_total: 0}]. *)
Definition payload_zero_total : option IMetricRequestResult :=
  Some (mkResult (Some (of_Z 512)) (Some 0%Qc)).

(** [{message: ...}], an object without the two fields. *)
Definition payload_other_shape : option IMetricRequestResult :=
  Some (mkResult None None).

(** A server that answers every request with status 500 and a JSON body of
    another shape. *)
Definition error_status_network : Network :=
  {| answers := fun _ =>
       Fulfilled {| status := 500; json := Fulfilled payload_other_shape |};
     requests := 0 |}.

End Scenarios.

(** ** The status item, [DiskUsage] (the renderer), and the model's poll *)

Module Renderer.

Import DiskUsage Private.

(** Options for creating a DiskUsage model ([Model.IOptions]). *)
Record IOptions : Type := mkOptions {
  refreshRate : Z
}.

(** The options the model's constructor passes to [new Poll], the factory
    apart. *)
Record Frequency : Type := mkFrequency {
  interval : Z;
  backoff : bool
}.
Record PollOptions : Type := mkPollOptions {
  frequency : Frequency;
  name : string
}.

Definition poll_options (options : IOptions) : PollOptions :=
  {| frequency := {| interval := refreshRate options; backoff := true |};
     name := "@jupyterlab/statusbar:DiskUsage#metrics" |}.

(** The options the status item creates its model with. *)
Definition item_options : IOptions := {| refreshRate := 5000 |}.

(** An argument of a translated message: a string, or the unit tag. *)
Inductive Arg : Type :=
| Text (s : string)
| UnitTag (u : MemoryUnit).

(** The two elements [render] returns: [<div></div>], and a [TextItem] with
    its [title], its [source] and, when given, its [className]. *)
Inductive Element : Type :=
| div
| TextItem (title source : string) (className : option string).

Section Render.

(** [this._trans.__], the number formatter [toFixed] and the style class
    [resourceItem] imported from [./text]. *)
Variable trans__ : string -> list Arg -> string.
Variable toFixed : number -> nat -> string.
Variable resourceItem : string.

(** Render the disk usage status item.  [model] is [None] when the renderer
    holds no model. *)
Definition render (model : option Model) : Element :=
  match model with
  | None => div
  | Some model =>
      match diskTotal model with
      | None => div
      | Some total =>
          let text :=
            trans__ "Disk Usage: %1 / %2 %3"
              [Text (toFixed (diskUsed model) DECIMAL_PLACES);
               Text (toFixed total DECIMAL_PLACES);
               UnitTag (units model)] in
          if negb (usageWarning model) then
            TextItem (trans__ "Current disk usage" []) text None
          else
            TextItem (trans__ "Current disk usage" []) text (Some resourceItem)
      end
  end.

End Render.

(** An element that carries a style class. *)
Definition has_className (e : Element) : bool :=
  match e with
  | TextItem _ _ (Some _) => true
  | _ => false
  end.

End Renderer.

(** ** Further inputs for the scenarios *)

Module MoreScenarios.

Import DiskUsage Private Renderer Scenarios.

(** A server that answers every request with status 200 and the same body as
    [error_status_network]. *)
Definition ok_status_network : Network :=
  {| answers := fun _ =>
       Fulfilled {| status := 200; json := Fulfilled payload_other_shape |};
     requests := 0 |}.

(** [{hasOwnProperty: 1}], an object without the two fields whose only
    property hides the method the handler calls. *)
Definition payload_shadowing : option IMetricRequestResult :=
  Some {| disk_used := None; disk_total := None; own_hasOwnProperty := true |}.


(** The handler with the converter and the table of [Format]. *)
Definition on_ticked : PollState -> Model -> Completion :=
  DiskUsage.on_ticked (convertToLargestUnit MEMORY_UNIT_LIMITS) MEMORY_UNIT_LIMITS.

(** The first successful tick after a failure, as the poll reports it. *)
Definition reconnected (value : option IMetricRequestResult) : PollState :=
  {| phase := "reconnected"; payload := value |}.

(** The untranslated message, without its arguments. *)
Definition plain_trans (msgid : string) (args : list Arg) : string := msgid.

(** A formatter that ignores the digits. *)
Definition blank_toFixed (x : number) (digits : nat) : string := "#".

(** The renderer on these. *)
Definition render : option Model -> Element :=
  Renderer.render plain_trans blank_toFixed "resourceItem".

End MoreScenarios.

(** * Properties *)

(** ** Facts about the operators *)

Module JSFacts.

Lemma strict_neq_false (a b : number) : strict_neq a b = false <-> a = b.
Proof.
  unfold strict_neq. rewrite negb_false_iff, Qeq_bool_iff.
  split; [apply Qc_is_canon | intros ->; reflexivity].
Qed.

Lemma strict_neq_true (a b : number) : strict_neq a b = true <-> a <> b.
Proof.
  rewrite <- strict_neq_false. destruct (strict_neq a b); split; congruence.
Qed.

Lemma strict_neq_nullable_false (a b : option number) :
  strict_neq_nullable a b = false <-> a = b.
Proof.
  destruct a as [x|], b as [y|]; simpl; try (split; congruence).
  rewrite strict_neq_false. split; congruence.
Qed.

Lemma strict_neq_nullable_true (a b : option number) :
  strict_neq_nullable a b = true <-> a <> b.
Proof.
  rewrite <- strict_neq_nullable_false.
  destruct (strict_neq_nullable a b); split; congruence.
Qed.

Lemma le_iff (a b : number) : le a b = true <-> (a <= b)%Qc.
Proof. unfold le, Qcle. apply Qle_bool_iff. Qed.

Lemma truthy_Some (x : number) : truthy (Some x) = true <-> x <> 0%Qc.
Proof. simpl. apply strict_neq_true. Qed.

(** Dividing by a positive multiplier: the quotient reaches 1 exactly when
    the dividend reaches the multiplier. *)
Lemma one_le_div_iff (b m : number) :
  (0 < m)%Qc -> (1 <= b / m)%Qc <-> (m <= b)%Qc.
Proof.
  intros Hm.
  assert (Hne : m <> 0%Qc) by (apply not_eq_sym, Qclt_not_eq, Hm).
  assert (Hb : ((b / m) * m)%Qc = b)
    by (rewrite Qcmult_comm; apply Qcmult_div_r, Hne).
  split; intros H.
  - apply (Qcmult_le_compat_r _ _ m) in H; [| apply Qclt_le_weak, Hm].
    rewrite Qcmult_1_l, Hb in H. exact H.
  - apply (Qcmult_lt_0_le_reg_r _ _ m Hm).
    rewrite Qcmult_1_l, Hb. exact H.
Qed.

Lemma zero_div (m : number) : (0 / m)%Qc = 0%Qc.
Proof. unfold Qcdiv. apply Qcmult_0_l. Qed.

End JSFacts.

Export JSFacts.

(** ** Facts about the unit table and the converter *)

Module FormatFacts.

Lemma rank_inj (a b : MemoryUnit) : rank a = rank b -> a = b.
Proof. destruct a, b; simpl; intros H; try reflexivity; discriminate H. Qed.

Lemma unit_strict_neq_false (a b : MemoryUnit) :
  unit_strict_neq a b = false <-> a = b.
Proof.
  unfold unit_strict_neq, MemoryUnit_eqb.
  rewrite negb_false_iff, Nat.eqb_eq.
  split; [apply rank_inj | intros ->; reflexivity].
Qed.

Lemma unit_strict_neq_true (a b : MemoryUnit) :
  unit_strict_neq a b = true <-> a <> b.
Proof.
  rewrite <- unit_strict_neq_false.
  destruct (unit_strict_neq a b); split; congruence.
Qed.

Lemma all_units_listed (u : MemoryUnit) : In u UNITS_DESCENDING.
Proof. destruct u; simpl; tauto. Qed.

Lemma units_sorted :
  StronglySorted (fun a b => (rank b < rank a)%nat) UNITS_DESCENDING.
Proof. repeat constructor; simpl; lia. Qed.

Section ConverterFacts.

Variable limits : MemoryUnit -> number.

(** The multipliers are positive and grow with the unit. *)
Hypothesis limits_pos : forall u, (0 < limits u)%Qc.
Hypothesis limits_mono : forall u v, (rank u < rank v)%nat -> (limits u < limits v)%Qc.

Lemma first_fitting_fits (table : list MemoryUnit) (bytes : number) (u : MemoryUnit) :
  first_fitting limits table bytes = Some u -> (limits u <= bytes)%Qc.
Proof.
  induction table as [|x rest IH]; simpl; [discriminate|].
  destruct (JS.le (limits x) bytes) eqn:E; [|exact IH].
  intros [= <-]. apply le_iff, E.
Qed.

Lemma first_fitting_none (table : list MemoryUnit) (bytes : number) :
  first_fitting limits table bytes = None ->
  forall u, In u table -> (bytes < limits u)%Qc.
Proof.
  induction table as [|x rest IH]; simpl; [intros _ u []|].
  destruct (JS.le (limits x) bytes) eqn:E; [discriminate|].
  intros Hrest u [<- | Hin]; [| exact (IH Hrest u Hin)].
  apply Qcnot_le_lt. intros Hle. apply le_iff in Hle. congruence.
Qed.

(** In a table sorted from the largest unit down, every unit above the one
    picked has been tried and is too large. *)
Lemma first_fitting_largest (table : list MemoryUnit) (bytes : number) (u : MemoryUnit) :
  StronglySorted (fun a b => (rank b < rank a)%nat) table ->
  first_fitting limits table bytes = Some u ->
  forall u', In u' table -> (rank u < rank u')%nat -> (bytes < limits u')%Qc.
Proof.
  induction 1 as [|x rest Hsorted IH Hx]; simpl; [discriminate|].
  destruct (JS.le (limits x) bytes) eqn:E.
  - intros [= <-] u' [<- | Hin] Hlt; [lia|].
    rewrite Forall_forall in Hx. specialize (Hx u' Hin). lia.
  - intros Hrest u' [<- | Hin] Hlt; [| exact (IH Hrest u' Hin Hlt)].
    apply Qcnot_le_lt. intros Hle. apply le_iff in Hle. congruence.
Qed.

Lemma larger_limit_larger_rank (u u' : MemoryUnit) :
  (limits u < limits u')%Qc -> (rank u < rank u')%nat.
Proof.
  intros Hlt. destruct (Nat.lt_trichotomy (rank u) (rank u')) as [H | [H | H]].
  - exact H.
  - apply rank_inj in H. subst u'. exfalso.
    exact (Qclt_not_eq _ _ Hlt eq_refl).
  - exfalso. apply (Qclt_not_le _ _ Hlt). apply Qclt_le_weak, limits_mono, H.
Qed.

(** C6. For every non-negative byte count [b], [convertToLargestUnit b] is a
    pair [(v, u)] with [v = b / multiplier u], with [v >= 1] unless [u] is the
    smallest unit, and such that no unit [u'] with a larger multiplier has
    [b / multiplier u' >= 1]; and [convertToLargestUnit 0] is the value 0 in
    the smallest unit. *)
Theorem convertToLargestUnit_largest_fitting (b : number) :
  (0 <= b)%Qc ->
  let '(v, u) := convertToLargestUnit limits b in
  v = (b / limits u)%Qc /\
  (u <> B -> (1 <= v)%Qc) /\
  (forall u', (limits u < limits u')%Qc -> ~ (1 <= b / limits u')%Qc) /\
  convertToLargestUnit limits 0%Qc = (0%Qc, B).
Proof.
  intros _. unfold convertToLargestUnit.
  split; [reflexivity|]. split; [|split].
  - destruct (first_fitting limits UNITS_DESCENDING b) as [u|] eqn:E.
    + intros _. apply (proj2 (one_le_div_iff _ _ (limits_pos u))).
      exact (first_fitting_fits _ _ _ E).
    + intros H. contradiction H. reflexivity.
  - intros u' Hlt Hge.
    apply (proj1 (one_le_div_iff _ _ (limits_pos u'))) in Hge.
    apply (Qcle_not_lt _ _ Hge).
    destruct (first_fitting limits UNITS_DESCENDING b) as [u|] eqn:E.
    + apply (first_fitting_largest _ _ _ units_sorted E);
        [apply all_units_listed | apply larger_limit_larger_rank, Hlt].
    + apply (first_fitting_none _ _ E), all_units_listed.
  - destruct (first_fitting limits UNITS_DESCENDING 0%Qc) as [u|] eqn:E.
    + exfalso. apply first_fitting_fits in E.
      exact (Qclt_not_le _ _ (limits_pos u) E).
    + rewrite zero_div. reflexivity.
Qed.

End ConverterFacts.

End FormatFacts.

Export FormatFacts.

(** ** The spec's multiplier table and its scenarios *)

Module FormatExamples.

Lemma decimal_limits_pos (u : MemoryUnit) : (0 < MEMORY_UNIT_LIMITS u)%Qc.
Proof. destruct u; reflexivity. Qed.

Lemma decimal_limits_mono (u v : MemoryUnit) :
  (rank u < rank v)%nat -> (MEMORY_UNIT_LIMITS u < MEMORY_UNIT_LIMITS v)%Qc.
Proof. destruct u, v; simpl; intros H; try lia; reflexivity. Qed.

Lemma pair_canon (a b : number) (u v : MemoryUnit) :
  (a == b)%Q -> u = v -> (a, u) = (b, v).
Proof. intros Hq ->. f_equal. apply Qc_is_canon, Hq. Qed.

Example convert_5e9 :
  convertToLargestUnit MEMORY_UNIT_LIMITS (of_Z 5000000000) = (of_Z 5, GB).
Proof. apply pair_canon; reflexivity. Qed.

Example convert_512 :
  convertToLargestUnit MEMORY_UNIT_LIMITS (of_Z 512) = (of_Z 512, B).
Proof. apply pair_canon; reflexivity. Qed.

Example convert_999 :
  convertToLargestUnit MEMORY_UNIT_LIMITS (of_Z 999) = (of_Z 999, B).
Proof. apply pair_canon; reflexivity. Qed.

Example convert_1000 :
  convertToLargestUnit MEMORY_UNIT_LIMITS (of_Z 1000) = (of_Z 1, KB).
Proof. apply pair_canon; reflexivity. Qed.

Lemma convertToLargestUnit_largest_fitting_witness :
  (0 <= of_Z 5000000000)%Qc /\
  let '(v, u) := convertToLargestUnit MEMORY_UNIT_LIMITS (of_Z 5000000000) in
  v = (of_Z 5000000000 / MEMORY_UNIT_LIMITS u)%Qc /\
  (u <> B -> (1 <= v)%Qc) /\
  (forall u', (MEMORY_UNIT_LIMITS u < MEMORY_UNIT_LIMITS u')%Qc ->
              ~ (1 <= of_Z 5000000000 / MEMORY_UNIT_LIMITS u')%Qc) /\
  convertToLargestUnit MEMORY_UNIT_LIMITS 0%Qc = (0%Qc, B).
Proof.
  split; [discriminate|].
  apply (convertToLargestUnit_largest_fitting MEMORY_UNIT_LIMITS
           decimal_limits_pos decimal_limits_mono (of_Z 5000000000)).
  discriminate.
Defined.

End FormatExamples.

(** ** The model: what a poll tick does *)

Module DiskUsageFacts.

Import DiskUsage.

Lemma xorb_false_iff (a b : bool) : xorb a b = false <-> a = b.
Proof. destruct a, b; simpl; split; congruence. Qed.

Lemma same_or_differs (old new : Model) :
  same_snapshot old new -> snapshot_differs old new -> False.
Proof.
  intros (H1 & H2 & H3 & H4) [H | [H | [H | H]]]; contradiction.
Qed.

Section ModelFacts.

Variable convertToLargestUnit : number -> number * MemoryUnit.
Variable MEMORY_UNIT_LIMITS : MemoryUnit -> number.

Abbreviation _updateMetricsValues :=
  (_updateMetricsValues convertToLargestUnit MEMORY_UNIT_LIMITS).
Abbreviation updated value this := (after (_updateMetricsValues value this)).
Abbreviation ticked := (ticked convertToLargestUnit MEMORY_UNIT_LIMITS).
Abbreviation on_ticked := (on_ticked convertToLargestUnit MEMORY_UNIT_LIMITS).
Abbreviation run := (run convertToLargestUnit MEMORY_UNIT_LIMITS).

(** The four comparisons that guard the emission decide [snapshot_differs]. *)
Lemma guard_true (old new : Model) :
  strict_neq (_diskUsed new) (_diskUsed old)
  || unit_strict_neq (_units new) (_units old)
  || strict_neq_nullable (_diskTotal new) (_diskTotal old)
  || xorb (_metricsAvailable new) (_metricsAvailable old) = true
  <-> snapshot_differs old new.
Proof.
  unfold snapshot_differs.
  rewrite !orb_true_iff, strict_neq_true, unit_strict_neq_true,
    strict_neq_nullable_true.
  destruct (_metricsAvailable new), (_metricsAvailable old); simpl;
    intuition congruence.
Qed.

Lemma guard_false (old new : Model) :
  strict_neq (_diskUsed new) (_diskUsed old)
  || unit_strict_neq (_units new) (_units old)
  || strict_neq_nullable (_diskTotal new) (_diskTotal old)
  || xorb (_metricsAvailable new) (_metricsAvailable old) = false
  <-> same_snapshot old new.
Proof.
  unfold same_snapshot.
  rewrite !orb_false_iff, strict_neq_false, unit_strict_neq_false,
    strict_neq_nullable_false, xorb_false_iff.
  tauto.
Qed.

(** The step that ends a call that got past the test of the payload: it
    emits when the candidate fields differ from the old ones. *)
Lemma notify_emission (this candidate : Model) :
  stateChanged candidate = stateChanged this ->
  let this' :=
    after
      (if strict_neq (_diskUsed candidate) (_diskUsed this)
          || unit_strict_neq (_units candidate) (_units this)
          || strict_neq_nullable (_diskTotal candidate) (_diskTotal this)
          || xorb (_metricsAvailable candidate) (_metricsAvailable this)
       then Returned (emit candidate)
       else Returned candidate) in
  (snapshot_differs this this' /\ stateChanged this' = S (stateChanged this)) \/
  (same_snapshot this this' /\ stateChanged this' = stateChanged this).
Proof.
  intros Hc. simpl.
  match goal with
  | |- context [if ?c then Returned (emit _) else _] => destruct c eqn:E
  end; simpl.
  - left. apply guard_true in E. split; [exact E | f_equal; exact Hc].
  - right. apply guard_false in E. split; [exact E | exact Hc].
Qed.

(** The emission count moves by one exactly when the guard holds; a call
    that throws changes and emits nothing. *)
Lemma update_emission (value : option IMetricRequestResult) (this : Model) :
  (snapshot_differs this (updated value this) /\
   stateChanged (updated value this) = S (stateChanged this)) \/
  (same_snapshot this (updated value this) /\
   stateChanged (updated value this) = stateChanged this).
Proof.
  unfold DiskUsage._updateMetricsValues.
  destruct value as [[[used|] total [|]]|]; simpl;
    try (right; split; [repeat split | reflexivity]);
    try destruct (convertToLargestUnit used) as [diskUsed units];
    match goal with
    | |- context [Returned (emit ?candidate)] =>
        exact (notify_emission this candidate eq_refl)
    end.
Qed.

(** The snapshot computed from a payload does not depend on the snapshot
    held before. *)
Lemma update_twice_same (value : option IMetricRequestResult) (this : Model) :
  same_snapshot (updated value this) (updated value (updated value this)).
Proof.
  unfold DiskUsage._updateMetricsValues, same_snapshot.
  destruct value as [[[used|] total [|]]|]; simpl;
    try destruct (convertToLargestUnit used) as [diskUsed units]; simpl;
    repeat match goal with
           | |- context [if ?c then Returned (emit _) else _] =>
               destruct c; simpl
           end; auto.
Qed.

Lemma ticked_resolved (value : option IMetricRequestResult) (this : Model) :
  ticked (resolved value) this = updated value this.
Proof. reflexivity. Qed.

(** C1. On a resolved tick the model emits exactly one change notification
    if and only if one of the fields used, unit, total, available differs
    from the snapshot held before, and none if and only if all four are
    equal; the same payload processed a second time emits nothing. *)
Theorem resolved_tick_notifies_iff_changed
  (value : option IMetricRequestResult) (this : Model) :
  let this' := ticked (resolved value) this in
  (stateChanged this' = S (stateChanged this) <-> snapshot_differs this this') /\
  (stateChanged this' = stateChanged this <-> same_snapshot this this') /\
  stateChanged (ticked (resolved value) this') = stateChanged this'.
Proof.
  intros this'. subst this'. rewrite !ticked_resolved.
  split; [|split].
  - destruct (update_emission value this) as [[Hd He] | [Hs He]].
    + tauto.
    + split; [lia | intros Hd; destruct (same_or_differs _ _ Hs Hd)].
  - destruct (update_emission value this) as [[Hd He] | [Hs He]].
    + split; [lia | intros Hs; destruct (same_or_differs _ _ Hs Hd)].
    + tauto.
  - destruct (update_emission value (updated value this))
      as [[Hd He] | [Hs He]]; [|exact He].
    destruct (same_or_differs _ _ (update_twice_same value this) Hd).
Qed.

Lemma ticked_rejected (value : option IMetricRequestResult) (this : Model) :
  ticked (mkPollState "rejected" value) this =
  let reset :=
    set_units B
      (set_diskTotal None
         (set_diskUsed 0%Qc (set_metricsAvailable false this))) in
  if _metricsAvailable this then emit reset else reset.
Proof.
  unfold DiskUsage.ticked, DiskUsage.on_ticked. simpl.
  destruct (_metricsAvailable this); reflexivity.
Qed.

(** No assignment of the handler makes [_warn] true. *)
Lemma update_keeps_warn_false (value : option IMetricRequestResult) (this : Model) :
  _warn this = false -> _warn (updated value this) = false.
Proof.
  intros Hw. unfold DiskUsage._updateMetricsValues.
  destruct value as [[[used|] total [|]]|]; simpl;
    try destruct (convertToLargestUnit used) as [diskUsed units]; simpl;
    try match goal with
        | |- context [if ?c then Returned (emit _) else _] =>
            destruct c; simpl
        end; auto.
Qed.

Lemma ticked_keeps_warn_false (state : PollState) (this : Model) :
  _warn this = false -> _warn (ticked state this) = false.
Proof.
  intros Hw. unfold DiskUsage.ticked, DiskUsage.on_ticked.
  destruct (String.eqb (phase state) "resolved").
  - apply update_keeps_warn_false, Hw.
  - destruct (String.eqb (phase state) "rejected"); [|exact Hw].
    destruct (_metricsAvailable this); exact Hw.
Qed.

Lemma run_keeps_warn_false (ticks : list PollState) (this : Model) :
  _warn this = false -> _warn (run ticks this) = false.
Proof.
  revert this. induction ticks as [|state ticks IH]; intros this Hw.
  - exact Hw.
  - simpl. apply IH, ticked_keeps_warn_false, Hw.
Qed.

(** C2, amended. On a resolved tick whose payload is an object with a
    [disk_used] field and no own property named [hasOwnProperty],
    [(used, unit)] is [convertToLargestUnit] of that field and the model is
    available; the total is [disk_total] divided by the multiplier of that
    unit when [disk_total] is present and not zero, and absent when
    [disk_total] is missing or zero. *)
Theorem resolved_tick_with_disk_used
  (used : number) (total : option number) (this : Model) :
  let this' := ticked (resolved (Some (mkResult (Some used) total))) this in
  (_diskUsed this', _units this') = convertToLargestUnit used /\
  _metricsAvailable this' = true /\
  (forall t, total = Some t -> t <> 0%Qc ->
     _diskTotal this' = Some (t / MEMORY_UNIT_LIMITS (_units this'))%Qc) /\
  (total = None \/ total = Some 0%Qc -> _diskTotal this' = None).
Proof.
  intros this'. subst this'. rewrite ticked_resolved.
  unfold DiskUsage._updateMetricsValues. simpl.
  destruct (convertToLargestUnit used) as [diskUsed units]. simpl.
  match goal with
  | |- context [if ?c then Returned (emit _) else _] => destruct c; simpl
  end.
  all: repeat split; try reflexivity.
  all: try (intros t -> Ht; apply truthy_Some in Ht; rewrite Ht; reflexivity).
  all: intros [-> | ->]; reflexivity.
Qed.

(** C3. A rejected tick sets used = 0, total absent, unit = smallest and
    available = false, and leaves [_warn] as it was, which is false in every
    state the model reaches; it emits exactly one change notification when
    the model was available and none when it was already unavailable. *)
Theorem rejected_tick_resets
  (error : option IMetricRequestResult) (this : Model) :
  let this' := ticked (mkPollState "rejected" error) this in
  _diskUsed this' = 0%Qc /\
  _diskTotal this' = None /\
  _units this' = B /\
  _metricsAvailable this' = false /\
  _warn this' = _warn this /\
  stateChanged this' =
    (if _metricsAvailable this then S (stateChanged this) else stateChanged this) /\
  forall ticks,
    _warn (ticked (mkPollState "rejected" error) (run ticks initial)) = false.
Proof.
  intros this'. subst this'. rewrite ticked_rejected.
  repeat split; try (destruct (_metricsAvailable this); reflexivity).
  intros ticks. apply ticked_keeps_warn_false, run_keeps_warn_false.
  reflexivity.
Qed.

(** C4. "available = false implies used = 0, total absent, unit = smallest"
    holds of the initial fields and is preserved by the handler at every
    tick: resolved with a usable payload, resolved with a null payload or one
    without [disk_used], resolved with a payload at which the handler throws,
    rejected, and the phases the handler ignores. *)
Theorem unavailable_invariant_preserved :
  unavailable_invariant initial /\
  forall (state : PollState) (this : Model),
    unavailable_invariant this -> unavailable_invariant (ticked state this).
Proof.
  split; [intros _; repeat split|].
  intros state this Hinv. unfold DiskUsage.ticked, DiskUsage.on_ticked.
  destruct (String.eqb (phase state) "resolved").
  - unfold DiskUsage._updateMetricsValues.
    destruct (payload state) as [[[used|] total [|]]|]; simpl;
      try exact Hinv; unfold unavailable_invariant;
      try destruct (convertToLargestUnit used) as [diskUsed units]; simpl;
      match goal with
      | |- context [if ?c then Returned (emit _) else _] =>
          destruct c; simpl
      end; auto; discriminate.
  - destruct (String.eqb (phase state) "rejected"); [|exact Hinv].
    destruct (_metricsAvailable this); intros _; repeat split.
Qed.

(** C5, the failing case. A resolved tick whose payload is an object with
    an own property named [hasOwnProperty] does not reach the unavailable
    branch, whether or not the object has a [disk_used] field: the handler
    throws a [TypeError] at the test of the payload, no field of the model is
    assigned and nothing is emitted. *)
Theorem shadowed_hasOwnProperty_throws
  (value : option IMetricRequestResult) (this : Model) :
  shadows_hasOwnProperty value = true ->
  on_ticked (resolved value) this = Thrown "TypeError" this /\
  ticked (resolved value) this = this.
Proof.
  intros Hshadow. unfold DiskUsage.ticked, DiskUsage.on_ticked.
  simpl. unfold DiskUsage._updateMetricsValues.
  destruct value as [v|]; [|discriminate Hshadow].
  simpl in Hshadow. rewrite Hshadow. split; reflexivity.
Qed.

(** X13. A resolved tick whose payload is null, or an object without
    [disk_used] and without an own property named [hasOwnProperty], returns
    normally with the unavailable state: used = 0, total absent,
    unit = smallest, available = false, warn = false. *)
Theorem resolved_tick_without_disk_used
  (value : option IMetricRequestResult) (this : Model) :
  shadows_hasOwnProperty value = false ->
  value = None \/ (exists v, value = Some v /\ disk_used v = None) ->
  let this' := ticked (resolved value) this in
  thrown (on_ticked (resolved value) this) = None /\
  _diskUsed this' = 0%Qc /\
  _diskTotal this' = None /\
  _units this' = B /\
  _metricsAvailable this' = false /\
  _warn this' = false.
Proof.
  intros Hplain Hvalue this'. subst this'.
  unfold DiskUsage.ticked, DiskUsage.on_ticked. simpl.
  unfold DiskUsage._updateMetricsValues.
  destruct Hvalue as [-> | (v & -> & Hused)];
    [| simpl in Hplain; rewrite Hplain, Hused];
    match goal with
    | |- context [if ?c then Returned (emit _) else _] => destruct c; simpl
    end; repeat split.
Qed.

(** C9. The accessor [usageWarning] is false in every state the model
    reaches: [_warn] starts false, every tick keeps it false, and so does
    every sequence of ticks from the initial state. *)
Theorem usageWarning_always_false :
  usageWarning initial = false /\
  (forall (state : PollState) (this : Model),
     usageWarning this = false -> usageWarning (ticked state this) = false) /\
  forall ticks : list PollState, usageWarning (run ticks initial) = false.
Proof.
  split; [reflexivity|]. split.
  - exact ticked_keeps_warn_false.
  - intros ticks. apply run_keeps_warn_false. reflexivity.
Qed.


End ModelFacts.

End DiskUsageFacts.

(** ** The request factory *)

Module PrivateFacts.

Import DiskUsage Private.

Lemma factory_unfold (net : Network) :
  factory net =
  (match answers net (requests net) with
   | Fulfilled response => json response
   | Failed reason => Failed reason
   end,
   {| answers := answers net; requests := S (requests net) |}).
Proof.
  unfold factory, makeRequest, await.
  destruct (answers net (requests net)) as [response | reason];
    [destruct (json response)|]; reflexivity.
Qed.


End PrivateFacts.

(** ** The scenarios *)

Module ScenarioFacts.

Import DiskUsage Private Scenarios MoreScenarios.
Import DiskUsageFacts PrivateFacts FormatExamples.

Lemma of_Z_nonzero (z : Z) : z <> 0%Z -> of_Z z <> 0%Qc.
Proof.
  intros Hz H. apply Q2Qc_eq_iff in H.
  unfold Qeq in H. simpl in H. lia.
Qed.

(** Equal numbers are equal values: compare the underlying fractions. *)
Ltac canon :=
  try reflexivity;
  try (apply Qc_is_canon; reflexivity);
  try (vm_compute; f_equal; apply Qc_is_canon; reflexivity).

(** The 5 GB scenario: unit GB, used 5, total 20, available. *)
Example scenario_5GB :
  let this' := ticked (resolved payload_5GB) initial in
  units this' = GB /\
  diskUsed this' = of_Z 5 /\
  diskTotal this' = Some (of_Z 20) /\
  metricsAvailable this' = true /\
  stateChanged this' = 1%nat.
Proof. repeat split; canon. Qed.

(** The 512 byte scenario: unit B, used 512, total 2048. *)
Example scenario_512 :
  let this' := ticked (resolved payload_512) initial in
  units this' = B /\
  diskUsed this' = of_Z 512 /\
  diskTotal this' = Some (of_Z 2048).
Proof. repeat split; canon. Qed.

(** The null payload. *)
Example scenario_null :
  ticked (resolved None) initial = initial.
Proof. reflexivity. Qed.

(** A rejected tick after an available state notifies once; a second
    rejected tick does not. *)
Example scenario_rejected_twice :
  stateChanged (ticked (resolved payload_512) initial) = 1%nat /\
  stateChanged (ticked rejected (ticked (resolved payload_512) initial)) = 2%nat /\
  stateChanged
    (ticked rejected (ticked rejected (ticked (resolved payload_512) initial)))
  = 2%nat.
Proof. repeat split. Qed.

(** A payload whose [disk_total] is present and zero: the total the model
    holds is absent, not [0 / multiplier]. *)
Lemma present_zero_total_is_dropped :
  let this' := ticked (resolved payload_zero_total) initial in
  (exists used, payload_zero_total = Some (mkResult (Some used) (Some 0%Qc))) /\
  metricsAvailable this' = true /\
  diskTotal this' = None /\
  diskTotal this' <> Some (0 / MEMORY_UNIT_LIMITS (units this'))%Qc.
Proof.
  split; [eexists; reflexivity|].
  split; [reflexivity|]. split; [reflexivity | discriminate].
Qed.

Lemma resolved_tick_with_disk_used_witness :
  let this' := ticked (resolved payload_5GB) initial in
  Some (of_Z 20000000000) = Some (of_Z 20000000000) /\
  of_Z 20000000000 <> 0%Qc /\
  _diskTotal this' =
    Some (of_Z 20000000000 / MEMORY_UNIT_LIMITS (_units this'))%Qc.
Proof.
  split; [reflexivity|]. split; [apply of_Z_nonzero; lia|].
  apply (proj1 (proj2 (proj2
           (resolved_tick_with_disk_used
              (convertToLargestUnit MEMORY_UNIT_LIMITS) MEMORY_UNIT_LIMITS
              (of_Z 5000000000) (Some (of_Z 20000000000)) initial)))
           (of_Z 20000000000) eq_refl).
  apply of_Z_nonzero. lia.
Defined.

Lemma unavailable_invariant_preserved_witness :
  unavailable_invariant initial /\
  unavailable_invariant (ticked rejected (ticked (resolved payload_512) initial)).
Proof.
  pose proof (unavailable_invariant_preserved
                (convertToLargestUnit MEMORY_UNIT_LIMITS) MEMORY_UNIT_LIMITS)
    as [Hinit Hstep].
  split; [exact Hinit|].
  apply Hstep, Hstep, Hinit.
Defined.

Lemma resolved_tick_without_disk_used_witness :
  shadows_hasOwnProperty payload_other_shape = false /\
  (payload_other_shape = None \/
   exists v, payload_other_shape = Some v /\ disk_used v = None) /\
  let this' :=
    ticked (resolved payload_other_shape)
      (ticked (resolved payload_512) initial) in
  thrown (on_ticked (resolved payload_other_shape)
            (ticked (resolved payload_512) initial)) = None /\
  _diskUsed this' = 0%Qc /\
  _diskTotal this' = None /\
  _units this' = B /\
  _metricsAvailable this' = false /\
  _warn this' = false.
Proof.
  assert (H : payload_other_shape = None \/
              exists v, payload_other_shape = Some v /\ disk_used v = None)
    by (right; eexists; split; reflexivity).
  split; [reflexivity|]. split; [exact H|].
  exact (resolved_tick_without_disk_used
           (convertToLargestUnit MEMORY_UNIT_LIMITS) MEMORY_UNIT_LIMITS
           payload_other_shape (ticked (resolved payload_512) initial)
           eq_refl H).
Defined.

(** The body [{hasOwnProperty: 1}] arriving at an available model: the
    handler throws and the model stays as it was. *)
Lemma shadowed_hasOwnProperty_throws_witness :
  shadows_hasOwnProperty payload_shadowing = true /\
  on_ticked (resolved payload_shadowing) (ticked (resolved payload_512) initial)
  = Thrown "TypeError" (ticked (resolved payload_512) initial) /\
  ticked (resolved payload_shadowing) (ticked (resolved payload_512) initial)
  = ticked (resolved payload_512) initial.
Proof.
  split; [reflexivity|].
  exact (shadowed_hasOwnProperty_throws
           (convertToLargestUnit MEMORY_UNIT_LIMITS) MEMORY_UNIT_LIMITS
           payload_shadowing (ticked (resolved payload_512) initial) eq_refl).
Defined.

(** The model is still available, with the total it had, where an object
    without [disk_used] should have made it unavailable. *)
Example shadowed_hasOwnProperty_keeps_available :
  let this' :=
    ticked (resolved payload_shadowing) (ticked (resolved payload_512) initial) in
  (exists v, payload_shadowing = Some v /\ disk_used v = None) /\
  metricsAvailable this' = true /\
  diskTotal this' <> None /\
  stateChanged this' = stateChanged (ticked (resolved payload_512) initial).
Proof.
  split; [eexists; split; reflexivity|].
  split; [reflexivity|]. split; [discriminate | reflexivity].
Qed.



(** The model then shows the unavailable state. *)
Example error_status_shows_unavailable :
  ticked (resolved payload_other_shape) initial = initial.
Proof. reflexivity. Qed.

End ScenarioFacts.

(** ** Ticks of any phase, and sequences of ticks *)

Module TickFacts.

Import DiskUsage DiskUsageFacts.

Lemma same_snapshot_refl (this : Model) : same_snapshot this this.
Proof. repeat split. Qed.

Lemma same_snapshot_trans (a b c : Model) :
  same_snapshot a b -> same_snapshot b c -> same_snapshot a c.
Proof.
  intros (H1 & H2 & H3 & H4) (K1 & K2 & K3 & K4).
  repeat split; congruence.
Qed.

Section TickFacts.

Variable convertToLargestUnit : number -> number * MemoryUnit.
Variable MEMORY_UNIT_LIMITS : MemoryUnit -> number.

Abbreviation _updateMetricsValues :=
  (_updateMetricsValues convertToLargestUnit MEMORY_UNIT_LIMITS).
Abbreviation updated value this := (after (_updateMetricsValues value this)).
Abbreviation on_ticked := (on_ticked convertToLargestUnit MEMORY_UNIT_LIMITS).
Abbreviation ticked := (ticked convertToLargestUnit MEMORY_UNIT_LIMITS).
Abbreviation run := (run convertToLargestUnit MEMORY_UNIT_LIMITS).

(** The three ways the handler goes, by the phase of the poll state. *)
Lemma ticked_cases (state : PollState) (this : Model) :
  (phase state = "resolved" /\
   ticked state this = updated (payload state) this) \/
  (phase state = "rejected" /\
   ticked state this = ticked (mkPollState "rejected" None) this) \/
  (phase state <> "resolved" /\ phase state <> "rejected" /\
   ticked state this = this).
Proof.
  unfold DiskUsage.ticked, DiskUsage.on_ticked.
  destruct (String.eqb_spec (phase state) "resolved") as [Hres | Hres].
  - left. split; [exact Hres | reflexivity].
  - destruct (String.eqb_spec (phase state) "rejected") as [Hrej | Hrej].
    + right. left. split; [exact Hrej | reflexivity].
    + right. right. repeat split; assumption.
Qed.

(** The rejected branch: what it emits and what it changes. *)
Lemma rejected_emission (this : Model) :
  unavailable_invariant this ->
  let this' := ticked (mkPollState "rejected" None) this in
  (snapshot_differs this this' /\
   stateChanged this' = S (stateChanged this)) \/
  (same_snapshot this this' /\ stateChanged this' = stateChanged this).
Proof.
  intros Hinv. rewrite ticked_rejected. simpl.
  destruct (_metricsAvailable this) eqn:Ha.
  - left. split; [|reflexivity].
    right. right. right. simpl. rewrite Ha. discriminate.
  - right. destruct (Hinv Ha) as (Hu & Ht & Hn).
    split; [|reflexivity]. repeat split; simpl; congruence.
Qed.

(** Every tick either changes the snapshot and emits once, or changes
    nothing of it and emits nothing. *)
Lemma ticked_emission (state : PollState) (this : Model) :
  unavailable_invariant this ->
  (snapshot_differs this (ticked state this) /\
   stateChanged (ticked state this) = S (stateChanged this)) \/
  (same_snapshot this (ticked state this) /\
   stateChanged (ticked state this) = stateChanged this).
Proof.
  intros Hinv.
  destruct (ticked_cases state this)
    as [(_ & ->) | [(_ & ->) | (_ & _ & ->)]].
  - apply update_emission.
  - apply rejected_emission, Hinv.
  - right. split; [apply same_snapshot_refl | reflexivity].
Qed.

Lemma ticked_keeps_invariant (state : PollState) (this : Model) :
  unavailable_invariant this -> unavailable_invariant (ticked state this).
Proof.
  intros Hinv.
  destruct (ticked_cases state this)
    as [(_ & ->) | [(_ & ->) | (_ & _ & ->)]]; [| |exact Hinv].
  - unfold DiskUsage._updateMetricsValues.
    destruct (payload state) as [[[used|] total [|]]|]; simpl;
      try exact Hinv; unfold unavailable_invariant;
      try destruct (convertToLargestUnit used) as [diskUsed units]; simpl;
      match goal with
      | |- context [if ?c then Returned (emit _) else _] =>
          destruct c; simpl
      end; auto; discriminate.
  - rewrite ticked_rejected. simpl.
    destruct (_metricsAvailable this); intros _; repeat split.
Qed.

Lemma run_cons (state : PollState) (ticks : list PollState) (this : Model) :
  run (state :: ticks) this = run ticks (ticked state this).
Proof. reflexivity. Qed.

Lemma run_keeps_invariant (ticks : list PollState) (this : Model) :
  unavailable_invariant this -> unavailable_invariant (run ticks this).
Proof.
  revert this. induction ticks as [|state ticks IH]; intros this Hinv.
  - exact Hinv.
  - rewrite run_cons. apply IH, ticked_keeps_invariant, Hinv.
Qed.

(** The count of emissions moves by zero or one at a tick. *)
Lemma ticked_stateChanged_step (state : PollState) (this : Model) :
  stateChanged (ticked state this) = stateChanged this \/
  stateChanged (ticked state this) = S (stateChanged this).
Proof.
  destruct (ticked_cases state this)
    as [(_ & ->) | [(_ & ->) | (_ & _ & ->)]].
  - destruct (update_emission convertToLargestUnit MEMORY_UNIT_LIMITS
                (payload state) this) as [[_ H] | [_ H]]; auto.
  - rewrite ticked_rejected. simpl.
    destruct (_metricsAvailable this); auto.
  - auto.
Qed.

Lemma run_stateChanged_bounds (ticks : list PollState) (this : Model) :
  (stateChanged this <= stateChanged (run ticks this))%nat /\
  (stateChanged (run ticks this) <= stateChanged this + length ticks)%nat.
Proof.
  revert this. induction ticks as [|state ticks IH]; intros this.
  - simpl. lia.
  - rewrite run_cons. specialize (IH (ticked state this)).
    destruct (ticked_stateChanged_step state this) as [H | H];
      rewrite H in IH; simpl; lia.
Qed.

(** X1. From a state in which "unavailable implies used = 0, total absent,
    unit smallest" holds, a tick of any phase emits exactly one change
    notification if and only if one of the four compared fields changed, and
    none if and only if all four kept their values. *)
Theorem tick_notifies_iff_changed (state : PollState) (this : Model) :
  unavailable_invariant this ->
  let this' := ticked state this in
  (stateChanged this' = S (stateChanged this) <-> snapshot_differs this this') /\
  (stateChanged this' = stateChanged this <-> same_snapshot this this').
Proof.
  intros Hinv this'. subst this'.
  destruct (ticked_emission state this Hinv) as [[Hd He] | [Hs He]]; split.
  - tauto.
  - split; [lia | intros Hs; destruct (same_or_differs _ _ Hs Hd)].
  - split; [lia | intros Hd; destruct (same_or_differs _ _ Hs Hd)].
  - tauto.
Qed.

(** X2. A tick never lowers the count of emitted notifications and raises
    it by at most one; a sequence of [n] ticks emits at most [n]
    notifications. *)
Theorem notifications_bounded_by_ticks
  (ticks : list PollState) (state : PollState) (this : Model) :
  (stateChanged this <= stateChanged (ticked state this)
                     <= S (stateChanged this))%nat /\
  (stateChanged this <= stateChanged (run ticks this)
                     <= stateChanged this + length ticks)%nat.
Proof.
  split.
  - destruct (ticked_stateChanged_step state this) as [-> | ->]; lia.
  - apply run_stateChanged_bounds.
Qed.

(** X3. A tick whose phase is neither 'resolved' nor 'rejected' leaves the
    model as it is, whatever its payload: no field changes and nothing is
    emitted. *)
Theorem other_phases_are_ignored (state : PollState) (this : Model) :
  phase state <> "resolved" -> phase state <> "rejected" ->
  ticked state this = this.
Proof.
  intros Hres Hrej.
  destruct (ticked_cases state this)
    as [(H & _) | [(H & _) | (_ & _ & H)]]; [contradiction | contradiction |].
  exact H.
Qed.

(** X4. The snapshot a rejected tick leaves, or a resolved tick whose
    payload has no own property named [hasOwnProperty], does not depend on
    the model it arrives at: the same tick gives the same four fields from any
    two models. *)
Theorem snapshot_depends_on_tick_only (state : PollState) (this1 this2 : Model) :
  phase state = "rejected" \/
  (phase state = "resolved" /\ shadows_hasOwnProperty (payload state) = false) ->
  same_snapshot (ticked state this1) (ticked state this2).
Proof.
  intros Hphase.
  destruct (ticked_cases state this1)
    as [(H1 & ->) | [(H1 & ->) | (H1 & H1' & _)]];
    destruct (ticked_cases state this2)
    as [(H2 & ->) | [(H2 & ->) | (H2 & H2' & _)]];
    try congruence; try (destruct Hphase as [H | [H _]]; contradiction).
  - destruct Hphase as [Hrej | [_ Hplain]]; [congruence|].
    unfold DiskUsage._updateMetricsValues, same_snapshot.
    destruct (payload state) as [[[used|] total [|]]|]; simpl;
      try discriminate Hplain;
      try destruct (convertToLargestUnit used) as [diskUsed units]; simpl;
      repeat match goal with
             | |- context [if ?c then Returned (emit _) else _] =>
                 destruct c; simpl
             end; auto.
  - rewrite !ticked_rejected. simpl.
    destruct (_metricsAvailable this1), (_metricsAvailable this2);
      repeat split.
Qed.

(** X5. From a state in which the unavailable invariant holds, a sequence of
    ticks that emits no notification leaves the four compared fields as they
    were: no change of the snapshot goes unnotified. *)
Theorem silent_run_keeps_snapshot (ticks : list PollState) (this : Model) :
  unavailable_invariant this ->
  stateChanged (run ticks this) = stateChanged this ->
  same_snapshot this (run ticks this).
Proof.
  revert this. induction ticks as [|state ticks IH]; intros this Hinv Hsilent.
  - apply same_snapshot_refl.
  - rewrite run_cons in *.
    pose proof (run_stateChanged_bounds ticks (ticked state this)) as [Hlo _].
    destruct (ticked_emission state this Hinv) as [[_ He] | [Hs He]];
      [lia|].
    apply (same_snapshot_trans _ (ticked state this)); [exact Hs|].
    apply IH; [apply ticked_keeps_invariant, Hinv | congruence].
Qed.

(** X6. Availability flips are always notified: a resolved tick whose
    payload has a [disk_used] field and no own property named
    [hasOwnProperty], arriving at an unavailable model, makes it available
    and emits exactly one notification; a resolved tick with a null payload,
    or with an object without [disk_used] and without an own property named
    [hasOwnProperty], arriving at an available model, makes it unavailable
    and emits exactly one; and so does a rejected tick. *)
Theorem availability_flip_notifies_once
  (used : number) (total : option number)
  (value : option IMetricRequestResult) (this : Model) :
  (_metricsAvailable this = false ->
   let this' := ticked (resolved (Some (mkResult (Some used) total))) this in
   _metricsAvailable this' = true /\
   stateChanged this' = S (stateChanged this)) /\
  (_metricsAvailable this = true ->
   shadows_hasOwnProperty value = false ->
   (value = None \/ exists v, value = Some v /\ disk_used v = None) ->
   let gone := ticked (resolved value) this in
   _metricsAvailable gone = false /\
   stateChanged gone = S (stateChanged this)) /\
  (_metricsAvailable this = true ->
   let failed := ticked (mkPollState "rejected" value) this in
   _metricsAvailable failed = false /\
   stateChanged failed = S (stateChanged this)).
Proof.
  split; [|split].
  - intros Ha. simpl. rewrite ticked_resolved.
    assert (Hnow : _metricsAvailable
                     (updated (Some (mkResult (Some used) total)) this) = true).
    { unfold DiskUsage._updateMetricsValues. simpl.
      destruct (convertToLargestUnit used) as [diskUsed units]. simpl.
      match goal with
      | |- context [if ?c then Returned (emit _) else _] =>
          destruct c; reflexivity
      end. }
    split; [exact Hnow|].
    destruct (update_emission convertToLargestUnit MEMORY_UNIT_LIMITS
                (Some (mkResult (Some used) total)) this)
      as [[_ He] | [(_ & _ & _ & Hs) _]]; [exact He | congruence].
  - intros Ha Hplain Hvalue. simpl. rewrite ticked_resolved.
    assert (Hnow : _metricsAvailable (updated value this) = false).
    { unfold DiskUsage._updateMetricsValues.
      destruct Hvalue as [-> | (v & -> & Hused)];
        [| simpl in Hplain; rewrite Hplain, Hused];
        match goal with
        | |- context [if ?c then Returned (emit _) else _] =>
            destruct c; reflexivity
        end. }
    split; [exact Hnow|].
    destruct (update_emission convertToLargestUnit MEMORY_UNIT_LIMITS
                value this)
      as [[_ He] | [(_ & _ & _ & Hs) _]]; [exact He | congruence].
  - intros Ha. simpl. rewrite ticked_rejected. simpl.
    rewrite Ha. split; reflexivity.
Qed.

(** X14. A resolved tick whose payload is an object with an own property
    named [hasOwnProperty] is the only tick at which the handler throws: a
    tick of any other phase, and a resolved tick with any other payload,
    returns normally. *)
Theorem handler_throws_only_on_shadowed_method (state : PollState) (this : Model) :
  thrown (on_ticked state this) <> None <->
  phase state = "resolved" /\ shadows_hasOwnProperty (payload state) = true.
Proof.
  unfold DiskUsage.on_ticked.
  destruct (String.eqb_spec (phase state) "resolved") as [Hres | Hres].
  - unfold DiskUsage._updateMetricsValues.
    destruct (payload state) as [[[used|] total [|]]|]; simpl;
      try destruct (convertToLargestUnit used) as [diskUsed units];
      try match goal with
          | |- context [if ?c then Returned (emit _) else _] =>
              destruct c; simpl
          end;
      split; try (intros H; contradiction H; reflexivity);
      try (intros [_ H]; discriminate H);
      try (intros _; split; [exact Hres | reflexivity]);
      try (intros _; discriminate).
  - destruct (String.eqb (phase state) "rejected");
      [destruct (_metricsAvailable this)|]; simpl;
      (split; [intros H; contradiction H; reflexivity
              | intros [H _]; contradiction]).
Qed.

End TickFacts.

End TickFacts.

(** ** What the status item renders after ticks *)

Module RenderFacts.

Import DiskUsage Private Renderer DiskUsageFacts TickFacts.

Section RenderFacts.

Variable convertToLargestUnit : number -> number * MemoryUnit.
Variable MEMORY_UNIT_LIMITS : MemoryUnit -> number.
Variable trans__ : string -> list Arg -> string.
Variable toFixed : number -> nat -> string.
Variable resourceItem : string.

Abbreviation _updateMetricsValues :=
  (_updateMetricsValues convertToLargestUnit MEMORY_UNIT_LIMITS).
Abbreviation updated value this := (after (_updateMetricsValues value this)).
Abbreviation ticked := (ticked convertToLargestUnit MEMORY_UNIT_LIMITS).
Abbreviation run := (run convertToLargestUnit MEMORY_UNIT_LIMITS).
Abbreviation render := (render trans__ toFixed resourceItem).

(** [render] reads the used amount, the total and the unit, and the warning
    only when there is a total. *)
Lemma render_ext (a b : Model) :
  _diskUsed a = _diskUsed b ->
  _diskTotal a = _diskTotal b ->
  _units a = _units b ->
  _warn a = _warn b \/ _diskTotal a = None ->
  render (Some a) = render (Some b).
Proof.
  intros Hu Ht Hn Hw. unfold Renderer.render, diskTotal, diskUsed, units,
    usageWarning.
  rewrite <- Ht, <- Hu, <- Hn.
  destruct (_diskTotal a) as [total|]; [|reflexivity].
  destruct Hw as [Hw | Hw]; [rewrite Hw; reflexivity | discriminate].
Qed.

Lemma render_blank (this : Model) :
  _diskTotal this = None -> render (Some this) = div.
Proof.
  intros Ht. unfold Renderer.render, diskTotal. rewrite Ht. reflexivity.
Qed.

(** A tick keeps the warning flag unless it leaves no total. *)
Lemma ticked_warn_or_blank (state : PollState) (this : Model) :
  _warn (ticked state this) = _warn this \/
  _diskTotal (ticked state this) = None.
Proof.
  destruct (ticked_cases convertToLargestUnit MEMORY_UNIT_LIMITS state this)
    as [(_ & ->) | [(_ & ->) | (_ & _ & ->)]].
  - unfold DiskUsage._updateMetricsValues.
    destruct (payload state) as [[[used|] total [|]]|]; simpl;
      try destruct (convertToLargestUnit used) as [diskUsed units]; simpl;
      try match goal with
          | |- context [if ?c then Returned (emit _) else _] =>
              destruct c; simpl
          end; auto.
  - rewrite ticked_rejected. simpl.
    destruct (_metricsAvailable this); auto.
  - auto.
Qed.

Lemma silent_tick_keeps_render (state : PollState) (this : Model) :
  unavailable_invariant this ->
  stateChanged (ticked state this) = stateChanged this ->
  render (Some (ticked state this)) = render (Some this).
Proof.
  intros Hinv Hsilent.
  destruct (ticked_emission convertToLargestUnit MEMORY_UNIT_LIMITS
              state this Hinv) as [[_ He] | [(Hu & Hn & Ht & _) _]]; [lia|].
  apply render_ext; try assumption. apply ticked_warn_or_blank.
Qed.

(** X7. From a state in which the unavailable invariant holds, a sequence of
    ticks that emits no notification leaves the rendered element as it was:
    the status item never needs a re-render it is not told of. *)
Theorem silent_run_keeps_render (ticks : list PollState) (this : Model) :
  unavailable_invariant this ->
  stateChanged (run ticks this) = stateChanged this ->
  render (Some (run ticks this)) = render (Some this).
Proof.
  revert this. induction ticks as [|state ticks IH]; intros this Hinv Hsilent.
  - reflexivity.
  - rewrite run_cons in *.
    pose proof (run_stateChanged_bounds convertToLargestUnit MEMORY_UNIT_LIMITS
                  ticks (ticked state this)) as [Hlo _].
    destruct (ticked_stateChanged_step convertToLargestUnit MEMORY_UNIT_LIMITS
                state this) as [He | He]; [|lia].
    rewrite IH; [| apply ticked_keeps_invariant, Hinv | congruence].
    apply silent_tick_keeps_render; assumption.
Qed.

(** X8. The status item renders the empty [div] after a rejected tick,
    after a resolved tick with a null payload or with an object without
    [disk_used] and without an own property named [hasOwnProperty], and
    after a resolved tick whose [disk_total] is missing or zero; in the last
    case the model is available all the same. *)
Theorem blank_after_unusable_tick
  (used : number) (total : option number)
  (value : option IMetricRequestResult) (this : Model) :
  render (Some (ticked (mkPollState "rejected" value) this)) = div /\
  (shadows_hasOwnProperty value = false ->
   (value = None \/ exists v, value = Some v /\ disk_used v = None) ->
   render (Some (ticked (resolved value) this)) = div) /\
  (total = None \/ total = Some 0%Qc ->
   let this' := ticked (resolved (Some (mkResult (Some used) total))) this in
   render (Some this') = div /\ metricsAvailable this' = true).
Proof.
  split; [|split].
  - apply render_blank. rewrite ticked_rejected. simpl.
    destruct (_metricsAvailable this); reflexivity.
  - intros Hplain Hvalue. apply render_blank. rewrite ticked_resolved.
    unfold DiskUsage._updateMetricsValues.
    destruct Hvalue as [-> | (v & -> & Hused)];
      [| simpl in Hplain; rewrite Hplain, Hused];
      match goal with
      | |- context [if ?c then Returned (emit _) else _] =>
          destruct c; reflexivity
      end.
  - intros Htotal. simpl. rewrite ticked_resolved.
    unfold DiskUsage._updateMetricsValues, metricsAvailable. simpl.
    destruct (convertToLargestUnit used) as [diskUsed units]. simpl.
    assert (Hfalsy : truthy total = false)
      by (destruct Htotal as [-> | ->]; reflexivity).
    rewrite Hfalsy.
    match goal with
    | |- context [if ?c then Returned (emit _) else _] => destruct c
    end; split; reflexivity.
Qed.

(** X9. After a resolved tick whose payload has [disk_used], a
    [disk_total] that is not zero and no own property named
    [hasOwnProperty], arriving at a model whose warning is off,
    the status item renders a [TextItem] without style class, titled
    'Current disk usage', whose text is the message 'Disk Usage: %1 / %2 %3'
    with the converted used amount and the total divided by the unit's
    multiplier, each to two decimal places, and the unit. *)
Theorem text_after_usable_tick (used t : number) (this : Model) :
  t <> 0%Qc ->
  _warn this = false ->
  let '(diskUsed, units) := convertToLargestUnit used in
  render (Some (ticked (resolved (Some (mkResult (Some used) (Some t)))) this))
  = TextItem (trans__ "Current disk usage" [])
      (trans__ "Disk Usage: %1 / %2 %3"
         [Text (toFixed diskUsed 2);
          Text (toFixed (t / MEMORY_UNIT_LIMITS units)%Qc 2);
          UnitTag units])
      None.
Proof.
  intros Ht Hw. rewrite ticked_resolved.
  unfold DiskUsage._updateMetricsValues. simpl.
  destruct (convertToLargestUnit used) as [diskUsed units]. simpl.
  apply truthy_Some in Ht. simpl in Ht. rewrite Ht.
  match goal with
  | |- context [if ?c then Returned (emit _) else _] => destruct c
  end; unfold Renderer.render; simpl; rewrite Hw; reflexivity.
Qed.

(** X10. After any sequence of ticks from the initial state the rendered
    element carries no style class: the warning style [resourceItem] is
    never applied. *)
Theorem warning_style_never_rendered (ticks : list PollState) :
  has_className (render (Some (run ticks initial))) = false.
Proof.
  pose proof (run_keeps_warn_false convertToLargestUnit MEMORY_UNIT_LIMITS
                ticks initial eq_refl) as Hw.
  unfold Renderer.render, usageWarning. rewrite Hw.
  destruct (diskTotal (run ticks initial)); reflexivity.
Qed.

(** X11. After any sequence of ticks from the initial state, a model that
    reports the metrics as unavailable is rendered as the empty [div]. *)
Theorem unavailable_is_rendered_blank (ticks : list PollState) :
  metricsAvailable (run ticks initial) = false ->
  render (Some (run ticks initial)) = div.
Proof.
  intros Ha. apply render_blank.
  assert (Hinit : unavailable_invariant initial) by (intros _; repeat split).
  destruct (run_keeps_invariant convertToLargestUnit MEMORY_UNIT_LIMITS
              ticks initial Hinit Ha) as (_ & Ht & _).
  exact Ht.
Qed.

End RenderFacts.

End RenderFacts.

(** ** The factory and the status of the response *)

Module StatusFacts.

Import DiskUsage Private PrivateFacts.

(** X12. The outcome of the factory does not depend on the status of the
    response: two servers whose pending answers fail with the same reason,
    or carry bodies that parse alike, give the same outcome. *)
Theorem factory_ignores_status (net1 net2 : Network) :
  match answers net1 (requests net1), answers net2 (requests net2) with
  | Fulfilled response1, Fulfilled response2 => json response1 = json response2
  | Failed reason1, Failed reason2 => reason1 = reason2
  | _, _ => False
  end ->
  fst (factory net1) = fst (factory net2).
Proof.
  rewrite !factory_unfold. simpl.
  destruct (answers net1 (requests net1)) as [response1 | reason1],
           (answers net2 (requests net2)) as [response2 | reason2];
    intros H; try contradiction; congruence.
Qed.

End StatusFacts.

(** ** The further properties on the scenarios *)

Module MoreScenarioFacts.

Import DiskUsage Private Renderer Scenarios MoreScenarios.
Import DiskUsageFacts TickFacts RenderFacts StatusFacts ScenarioFacts.

Abbreviation conv := (convertToLargestUnit MEMORY_UNIT_LIMITS).
Abbreviation run := (DiskUsage.run conv MEMORY_UNIT_LIMITS).

Lemma initial_invariant : unavailable_invariant initial.
Proof. intros _. repeat split. Qed.

(** A first successful tick after a failure, reported as 'reconnected', is
    ignored even though its payload is usable. *)
Lemma other_phases_are_ignored_witness :
  phase (reconnected payload_512) <> "resolved" /\
  phase (reconnected payload_512) <> "rejected" /\
  ticked (reconnected payload_512) (ticked rejected initial)
  = ticked rejected initial.
Proof.
  assert (H1 : phase (reconnected payload_512) <> "resolved") by discriminate.
  assert (H2 : phase (reconnected payload_512) <> "rejected") by discriminate.
  split; [exact H1|]. split; [exact H2|].
  exact (other_phases_are_ignored conv MEMORY_UNIT_LIMITS
           (reconnected payload_512) (ticked rejected initial) H1 H2).
Defined.

Lemma tick_notifies_iff_changed_witness :
  unavailable_invariant initial /\
  (stateChanged (ticked (resolved payload_512) initial) = S (stateChanged initial)
   <-> snapshot_differs initial (ticked (resolved payload_512) initial)) /\
  (stateChanged (ticked (resolved payload_512) initial) = stateChanged initial
   <-> same_snapshot initial (ticked (resolved payload_512) initial)).
Proof.
  split; [exact initial_invariant|].
  exact (tick_notifies_iff_changed conv MEMORY_UNIT_LIMITS
           (resolved payload_512) initial initial_invariant).
Defined.

Lemma snapshot_depends_on_tick_only_witness :
  (phase (resolved payload_512) = "rejected" \/
   (phase (resolved payload_512) = "resolved" /\
    shadows_hasOwnProperty (payload (resolved payload_512)) = false)) /\
  same_snapshot (ticked (resolved payload_512) initial)
    (ticked (resolved payload_512) (ticked (resolved payload_5GB) initial)).
Proof.
  assert (H : phase (resolved payload_512) = "rejected" \/
              (phase (resolved payload_512) = "resolved" /\
               shadows_hasOwnProperty (payload (resolved payload_512)) = false))
    by (right; split; reflexivity).
  split; [exact H|].
  exact (snapshot_depends_on_tick_only conv MEMORY_UNIT_LIMITS
           (resolved payload_512) initial
           (ticked (resolved payload_5GB) initial) H).
Defined.

Lemma silent_run_keeps_snapshot_witness :
  unavailable_invariant initial /\
  stateChanged (run [rejected; resolved None; reconnected payload_512] initial)
  = stateChanged initial /\
  same_snapshot initial
    (run [rejected; resolved None; reconnected payload_512] initial).
Proof.
  split; [exact initial_invariant|]. split; [reflexivity|].
  exact (silent_run_keeps_snapshot conv MEMORY_UNIT_LIMITS
           [rejected; resolved None; reconnected payload_512] initial
           initial_invariant eq_refl).
Defined.

Lemma availability_flip_notifies_once_witness :
  let shown := ticked (resolved payload_512) initial in
  (_metricsAvailable initial = false /\
   _metricsAvailable shown = true /\
   stateChanged shown = S (stateChanged initial)) /\
  (_metricsAvailable shown = true /\
   shadows_hasOwnProperty payload_other_shape = false /\
   (payload_other_shape = None \/
    exists v, payload_other_shape = Some v /\ disk_used v = None) /\
   _metricsAvailable (ticked (resolved payload_other_shape) shown) = false /\
   stateChanged (ticked (resolved payload_other_shape) shown)
   = S (stateChanged shown)) /\
  (_metricsAvailable shown = true /\
   _metricsAvailable (ticked (mkPollState "rejected" None) shown) = false /\
   stateChanged (ticked (mkPollState "rejected" None) shown)
   = S (stateChanged shown)).
Proof.
  assert (H : payload_other_shape = None \/
              exists v, payload_other_shape = Some v /\ disk_used v = None)
    by (right; eexists; split; reflexivity).
  split; [|split].
  - split; [reflexivity|].
    exact (proj1 (availability_flip_notifies_once conv MEMORY_UNIT_LIMITS
                    (of_Z 512) (Some (of_Z 2048)) None initial) eq_refl).
  - split; [reflexivity|]. split; [reflexivity|]. split; [exact H|].
    exact (proj1 (proj2 (availability_flip_notifies_once conv MEMORY_UNIT_LIMITS
                           (of_Z 512) None payload_other_shape
                           (ticked (resolved payload_512) initial)))
             eq_refl eq_refl H).
  - split; [reflexivity|].
    exact (proj2 (proj2 (availability_flip_notifies_once conv MEMORY_UNIT_LIMITS
                           (of_Z 512) None None
                           (ticked (resolved payload_512) initial)))
             eq_refl).
Defined.

Lemma silent_run_keeps_render_witness :
  unavailable_invariant initial /\
  stateChanged (run [rejected; resolved None; reconnected payload_512] initial)
  = stateChanged initial /\
  render (Some (run [rejected; resolved None; reconnected payload_512] initial))
  = render (Some initial).
Proof.
  split; [exact initial_invariant|]. split; [reflexivity|].
  exact (silent_run_keeps_render conv MEMORY_UNIT_LIMITS
           plain_trans blank_toFixed "resourceItem"
           [rejected; resolved None; reconnected payload_512] initial
           initial_invariant eq_refl).
Defined.

Lemma blank_after_unusable_tick_witness :
  let shown := ticked (resolved payload_512) initial in
  render (Some (ticked (mkPollState "rejected" None) shown)) = div /\
  (shadows_hasOwnProperty payload_other_shape = false /\
   (payload_other_shape = None \/
    exists v, payload_other_shape = Some v /\ disk_used v = None) /\
   render (Some (ticked (resolved payload_other_shape) shown)) = div) /\
  ((Some 0%Qc = None \/ Some 0%Qc = Some 0%Qc) /\
   render (Some (ticked (resolved payload_zero_total) shown)) = div /\
   metricsAvailable (ticked (resolved payload_zero_total) shown) = true).
Proof.
  assert (H : payload_other_shape = None \/
              exists v, payload_other_shape = Some v /\ disk_used v = None)
    by (right; eexists; split; reflexivity).
  assert (H0 : Some 0%Qc = None \/ Some 0%Qc = Some 0%Qc)
    by (right; reflexivity).
  pose proof (blank_after_unusable_tick conv MEMORY_UNIT_LIMITS
                plain_trans blank_toFixed "resourceItem"
                (of_Z 512) (Some 0%Qc) payload_other_shape
                (ticked (resolved payload_512) initial))
    as (_ & Hgone & Hzero).
  split; [|split].
  - exact (proj1 (blank_after_unusable_tick conv MEMORY_UNIT_LIMITS
                    plain_trans blank_toFixed "resourceItem"
                    (of_Z 512) (Some 0%Qc) None
                    (ticked (resolved payload_512) initial))).
  - split; [reflexivity|]. split; [exact H|]. exact (Hgone eq_refl H).
  - split; [exact H0|]. exact (Hzero H0).
Defined.

Lemma text_after_usable_tick_witness :
  of_Z 20000000000 <> 0%Qc /\
  _warn initial = false /\
  let '(diskUsed, units) := conv (of_Z 5000000000) in
  render (Some (ticked (resolved payload_5GB) initial))
  = TextItem (plain_trans "Current disk usage" [])
      (plain_trans "Disk Usage: %1 / %2 %3"
         [Text (blank_toFixed diskUsed 2);
          Text (blank_toFixed (of_Z 20000000000 / MEMORY_UNIT_LIMITS units)%Qc 2);
          UnitTag units])
      None.
Proof.
  assert (H : of_Z 20000000000 <> 0%Qc) by (apply of_Z_nonzero; lia).
  split; [exact H|]. split; [reflexivity|].
  exact (text_after_usable_tick conv MEMORY_UNIT_LIMITS
           plain_trans blank_toFixed "resourceItem"
           (of_Z 5000000000) (of_Z 20000000000) initial H eq_refl).
Defined.

Lemma unavailable_is_rendered_blank_witness :
  metricsAvailable (run [resolved payload_512; rejected] initial) = false /\
  render (Some (run [resolved payload_512; rejected] initial)) = div.
Proof.
  split; [reflexivity|].
  exact (unavailable_is_rendered_blank conv MEMORY_UNIT_LIMITS
           plain_trans blank_toFixed "resourceItem"
           [resolved payload_512; rejected] eq_refl).
Defined.

Lemma factory_ignores_status_witness :
  json {| status := 500; json := Fulfilled payload_other_shape |}
  = json {| status := 200; json := Fulfilled payload_other_shape |} /\
  fst (factory error_status_network) = fst (factory ok_status_network).
Proof.
  split; [reflexivity|].
  exact (factory_ignores_status error_status_network ok_status_network eq_refl).
Defined.

(** A usable payload after a failure is shown only once the poll reports a
    tick as 'resolved'. *)
Example reconnected_then_resolved :
  let failed := ticked rejected (ticked (resolved payload_512) initial) in
  metricsAvailable (ticked (reconnected payload_512) failed) = false /\
  metricsAvailable
    (ticked (resolved payload_512) (ticked (reconnected payload_512) failed))
  = true.
Proof. split; reflexivity. Qed.

End MoreScenarioFacts.
